(** * format_testcases.py: a shallow embedding and its specification

    The script [scripts/format_testcases.py] reads the JSON document
    [test-cases-response.json], writes one Markdown file per test case
    into the directory [test-cases/] and a summary [INDEX.md].  The module
    ends with two copies of the guard that calls [main()], so a run of the
    script is two calls of [main], the second one made only when the first
    one returns.

    Modelling decisions, fixed here once:

    - A Python [str] is a sequence of Unicode code points: [list N].
      Comparison of strings is Python's: lexicographic on code points.
    - The response is typed as the data model of the specification types
      it: every field of a test case is optional and, when present, has the
      type given there.  An absent key is [None].  Keys that hold JSON
      [null] or a value of another type are outside the model.
    - [json.load] and [datetime.fromisoformat] are library functions; the
      development is parametric in them.  The loader gives [Some r] when
      [json.load] returns the document [r] and [None] when it raises
      [JSONDecodeError], the one error [main] catches.  A load that ends in
      another error (bytes that are not UTF-8, an integer literal of more
      digits than the interpreter converts) is not a value of the loader:
      what is proved of a run is proved of runs whose load returns or
      raises [JSONDecodeError].  An integer that was loaded is printed
      without error.  [strftime] is the one of CPython on Linux: the year
      is printed without padding.
    - The output directory is a finite map from the names of the regular
      files below it to their contents; a key without separator is an entry
      of the directory itself.  Opening a file fails for a name with a NUL
      and for a name of more than 255 bytes; a name with a separator or a
      surrogate is resolved outside the directory, by the file system, and
      the world says what happens then.  Writing a text (UTF-8, strict)
      fails when the text has a surrogate, after the file has been created.
      Permissions and the space on the device are not modelled.
    - The console is a list of structured messages, one per [print]; it
      encodes UTF-8 strictly, so printing a string with a surrogate
      fails. *)

From Stdlib Require Import ZArith NArith List String Ascii Decimal Sorted
  Permutation.
From stdpp Require Import base option list gmap fin_maps.

Set Warnings "-abstract-large-number".

(** ** Python strings *)

Module PyStr.

Local Open Scope N_scope.

(** A Python string: its code points. *)
Abbreviation str := (list N).

(** String literals of the source, written in ASCII. *)
Definition py (s : string) : str :=
  map (fun a => N_of_ascii a) (list_ascii_of_string s).

Arguments py : simpl never.

(** [bool(s)] for a string: the empty string is falsy. *)
Definition truthy (s : str) : bool :=
  match s with [] => false | _ :: _ => true end.

(** [a < b] on strings: lexicographic order on code points. *)
Fixpoint ltb (a b : str) : bool :=
  match a, b with
  | _, [] => false
  | [], _ :: _ => true
  | x :: a', y :: b' => (x <? y) || ((x =? y) && ltb a' b')
  end.

(** [s.replace(old, new)] where [old] is a single character. *)
Fixpoint replace (old : N) (new : str) (s : str) : str :=
  match s with
  | [] => []
  | c :: s' => if c =? old then new ++ replace old new s'
               else c :: replace old new s'
  end.

(** [s.split(sep)] where [sep] is a single character: never empty. *)
Fixpoint split (sep : N) (s : str) : list str :=
  match s with
  | [] => [[]]
  | c :: s' =>
      if c =? sep then [] :: split sep s'
      else match split sep s' with
           | [] => [[c]]
           | l :: ls => (c :: l) :: ls
           end
  end.

(** [sep.join(l)]. *)
Fixpoint join (sep : str) (l : list str) : str :=
  match l with
  | [] => []
  | x :: l' => match l' with
               | [] => x
               | _ :: _ => x ++ sep ++ join sep l'
               end
  end.

(** [c.isspace()]: the white space code points of CPython's Unicode
    database. *)
Definition isspace (c : N) : bool :=
  ((9 <=? c) && (c <=? 13)) || ((28 <=? c) && (c <=? 32))
  || (c =? 133) || (c =? 160) || (c =? 5760)
  || ((8192 <=? c) && (c <=? 8202))
  || (c =? 8232) || (c =? 8233) || (c =? 8239) || (c =? 8287)
  || (c =? 12288).

(** [s.lstrip()], [s.rstrip()], [s.strip()]. *)
Fixpoint lstrip (s : str) : str :=
  match s with
  | [] => []
  | c :: s' => if isspace c then lstrip s' else s
  end.

Definition rstrip (s : str) : str := rev (lstrip (rev s)).

Definition strip (s : str) : str := rstrip (lstrip s).

(** [str(n)] for a natural number and for an integer. *)
Fixpoint of_uint (d : Decimal.uint) : str :=
  match d with
  | Nil => []
  | D0 d => 48 :: of_uint d
  | D1 d => 49 :: of_uint d
  | D2 d => 50 :: of_uint d
  | D3 d => 51 :: of_uint d
  | D4 d => 52 :: of_uint d
  | D5 d => 53 :: of_uint d
  | D6 d => 54 :: of_uint d
  | D7 d => 55 :: of_uint d
  | D8 d => 56 :: of_uint d
  | D9 d => 57 :: of_uint d
  end.

Definition of_nat (n : nat) : str := of_uint (Nat.to_uint n).

Definition of_Z (z : Z) : str :=
  match z with
  | Z0 => py "0"
  | Zpos p => of_uint (Pos.to_uint p)
  | Zneg p => py "-" ++ of_uint (Pos.to_uint p)
  end.

(** [needle in s]: [needle] occurs in [s] as a contiguous block. *)
Definition occurs_in (needle s : str) : Prop :=
  exists pre post, s = pre ++ needle ++ post.

(** [s.startswith(prefix)] and [s.endswith(suffix)]. *)
Fixpoint startswith (prefix s : str) : bool :=
  match prefix, s with
  | [], _ => true
  | _ :: _, [] => false
  | p :: prefix', c :: s' => (p =? c) && startswith prefix' s'
  end.

Definition endswith (suffix s : str) : bool :=
  startswith (rev suffix) (rev s).

(** A decimal digit character. *)
Definition isdigit (c : N) : bool := (48 <=? c) && (c <=? 57).

(** A code point UTF-8 encodes: a Unicode scalar value, not a surrogate. *)
Definition scalar (c : N) : bool :=
  (c <? 55296) || ((57343 <? c) && (c <=? 1114111)).

(** [s.encode('utf-8')] does not raise. *)
Definition encodable (s : str) : bool := forallb scalar s.

(** [len(s.encode('utf-8'))]. *)
Definition utf8_width (c : N) : N :=
  if c <? 128 then 1 else if c <? 2048 then 2 else if c <? 65536 then 3 else 4.

Definition utf8_length (s : str) : N :=
  fold_right (fun c n => utf8_width c + n) 0 s.

(** [c in s] for a character. *)
Definition has_char (c : N) (s : str) : bool := existsb (N.eqb c) s.

End PyStr.

Import PyStr.

(** ** The part of [datetime] the script uses *)

Module Datetime.

(** A [datetime] object, as far as [strftime] with the script's format
    reads it. *)
Record datetime := mkDatetime {
  year : nat; month : nat; day : nat;
  hour : nat; minute : nat; second : nat
}.

(** The ranges every [datetime] object respects (MINYEAR = 1,
    MAXYEAR = 9999). *)
Definition valid (dt : datetime) : Prop :=
  (1 <= year dt <= 9999 /\ 1 <= month dt <= 12 /\ 1 <= day dt <= 31 /\
   hour dt <= 23 /\ minute dt <= 59 /\ second dt <= 59)%nat.

(** A number in decimal, zero-padded on the left to width [w]. *)
Definition zpad (w : nat) (n : nat) : str :=
  let d := of_nat n in replicate (w - length d) 48%N ++ d.

(** [dt.strftime('%Y-%m-%d %H:%M:%S UTC')], as CPython on Linux prints it:
    [%Y] is the year in decimal without padding, so a year below 1000 has
    fewer than four digits; the other fields have two digits. *)
Definition strftime (dt : datetime) : str :=
  of_nat (year dt) ++ py "-" ++ zpad 2 (month dt) ++ py "-" ++
  zpad 2 (day dt) ++ py " " ++ zpad 2 (hour dt) ++ py ":" ++
  zpad 2 (minute dt) ++ py ":" ++ zpad 2 (second dt) ++ py " UTC".

(** A string of exactly [w] decimal digits. *)
Definition numeric (w : nat) (s : str) : bool :=
  Nat.eqb (length s) w && forallb isdigit s.

(** The fixed pattern [YYYY-MM-DD HH:MM:SS UTC]. *)
Definition fixed_pattern (s : str) : Prop :=
  exists Y M D h m sec,
    numeric 4 Y = true /\ numeric 2 M = true /\ numeric 2 D = true /\
    numeric 2 h = true /\ numeric 2 m = true /\ numeric 2 sec = true /\
    s = Y ++ py "-" ++ M ++ py "-" ++ D ++ py " " ++
        h ++ py ":" ++ m ++ py ":" ++ sec ++ py " UTC".

(** The pattern [strftime] prints in: as [fixed_pattern], but the year
    has one to four digits. *)
Definition printed_pattern (s : str) : Prop :=
  exists Y M D h m sec,
    forallb isdigit Y = true /\ (1 <= length Y <= 4)%nat /\
    numeric 2 M = true /\ numeric 2 D = true /\
    numeric 2 h = true /\ numeric 2 m = true /\ numeric 2 sec = true /\
    s = Y ++ py "-" ++ M ++ py "-" ++ D ++ py " " ++
        h ++ py ":" ++ m ++ py ":" ++ sec ++ py " UTC".

End Datetime.

Import Datetime.

(** ** Data model: the parsed response *)

(** A test case.  [createdBy] and [modifiedBy] are objects with string
    members ([name], [email], ...). *)
Record TestCase := mkTestCase {
  uuid : option str;
  description : option str;
  disabled : option bool;
  createdAt : option str;
  modifiedAt : option str;
  createdBy : option (gmap str str);
  modifiedBy : option (gmap str str);
  labels : option (list str);
  customSteps : option str
}.

(** The object under [data]: the records, the pagination count, and
    [list(d.keys())], the keys of the object in the order of the document
    (it names [content] and [totalElements] exactly when they are
    present). *)
Record Data := mkData {
  content : option (list TestCase);
  totalElements : option Z;
  data_keys : list str
}.

(** The top-level object, with [list(response.keys())]. *)
Record Response := mkResponse {
  status : option str;
  data : option Data;
  response_keys : list str
}.

(** [{}] where the source defaults a missing [data] to an empty dict. *)
Definition empty_dict : Data :=
  {| content := None; totalElements := None; data_keys := [] |}.

(** Truth value of an optional string, of an optional flag, of a dict and
    of a list, as [if x:] takes it ([None] is falsy). *)
Definition truthy_str (o : option str) : bool :=
  match o with Some s => truthy s | None => false end.

Definition truthy_flag (o : option bool) : bool := default false o.

Definition truthy_dict (d : gmap str str) : bool := bool_decide (d <> ∅).

Definition truthy_list {A} (l : list A) : bool :=
  match l with [] => false | _ :: _ => true end.

(** The status markers of the source (U+1F6AB and U+2705). *)
Definition icon_disabled : str := [128683%N].
Definition icon_enabled : str := [9989%N].

(** ** The console and the file system *)

(** One constructor per [print] call of [main]. *)
Inductive Msg :=
| ErrorNotFound                      (* line 110 *)
| ErrorInvalidJSON                   (* line 117 *)
| ApiResponseReceived                (* line 120 *)
| StatusLine (s : option str)        (* line 121 *)
| NoTestCasesFound                   (* line 127 *)
| ResponseKeys (ks : list str)       (* line 128 *)
| DataKeys (ks : list str)           (* line 130 *)
| Found (n : nat)                    (* line 133 *)
| SkippingWithoutUUID                (* line 147 *)
| Saved (desc : str)                 (* line 157 *)
| CreatedIndex                       (* line 167 *)
| SuccessfullyProcessed (n : nat).   (* line 168 *)

(** How a piece of the script ends: it returns, it calls [exit(code)], or
    an exception escapes. *)
Inductive Outcome (A : Type) :=
| Return (a : A)
| SystemExit (code : Z)
| Uncaught.

Arguments Return {A} a.
Arguments SystemExit {A} code.
Arguments Uncaught {A}.

(** What the process sees of the world: the input file (if it exists, its
    text), the directory [test-cases/] (if it exists, the regular files
    below it), the console so far, the clock, read by [datetime.utcnow()],
    and the file system around the directory: what opening and writing a
    file does, at its n-th use, for a name that is resolved outside the
    directory, and the directory afterwards. *)
Record World := mkWorld {
  response_file : option str;
  output_dir : option (gmap str str);
  stdout : list Msg;
  clock : nat -> datetime;
  ticks : nat;
  elsewhere : nat -> str -> str -> gmap str str ->
              Outcome unit * gmap str str;
  elsewhere_uses : nat
}.

(** Statements of the script: state passing with early exit. *)
Definition Proc (A : Type) : Type := World -> Outcome A * World.

Definition ret {A} (a : A) : Proc A := fun w => (Return a, w).

Definition bind {A B} (p : Proc A) (k : A -> Proc B) : Proc B :=
  fun w => match p w with
           | (Return a, w') => k a w'
           | (SystemExit c, w') => (SystemExit c, w')
           | (Uncaught, w') => (Uncaught, w')
           end.

Declare Scope proc_scope.
Delimit Scope proc_scope with proc.
Notation "x <- p ;; k" := (bind p (fun x => k))
  (at level 100, p at next level, right associativity) : proc_scope.
Notation "p ;; k" := (bind p (fun _ => k))
  (at level 100, right associativity) : proc_scope.

Local Open Scope proc_scope.

(** The exit status of the process. *)
Definition exit_status {A} (o : Outcome A) : Z :=
  match o with
  | Return _ => 0
  | SystemExit c => c
  | Uncaught => 1
  end.

(** The strings a message interpolates as they are can be encoded.  Key
    lists are printed through [repr], which escapes what cannot be. *)
Definition printable (m : Msg) : bool :=
  match m with
  | StatusLine (Some s) => encodable s
  | Saved desc => encodable desc
  | _ => true
  end.

(** [print(...)]: [UnicodeEncodeError] when the text cannot be encoded. *)
Definition print (m : Msg) : Proc unit :=
  fun w => if printable m then
             (Return tt,
              {| response_file := response_file w; output_dir := output_dir w;
                 stdout := stdout w ++ [m]; clock := clock w; ticks := ticks w;
                 elsewhere := elsewhere w;
                 elsewhere_uses := elsewhere_uses w |})
           else (Uncaught, w).

Definition exit {A} (code : Z) : Proc A := fun w => (SystemExit code, w).

(** [datetime.utcnow()]. *)
Definition utcnow : Proc datetime :=
  fun w => (Return (clock w (ticks w)),
            {| response_file := response_file w; output_dir := output_dir w;
               stdout := stdout w; clock := clock w; ticks := S (ticks w);
               elsewhere := elsewhere w;
               elsewhere_uses := elsewhere_uses w |}).

(** The text of [test-cases-response.json], [None] when
    [response_file.exists()] is false. *)
Definition read_response_file : Proc (option str) :=
  fun w => (Return (response_file w), w).

Definition set_output_dir (d : option (gmap str str)) (w : World) : World :=
  {| response_file := response_file w; output_dir := d;
     stdout := stdout w; clock := clock w; ticks := ticks w;
     elsewhere := elsewhere w; elsewhere_uses := elsewhere_uses w |}.

(** [output_dir.mkdir(exist_ok=True)]. *)
Definition mkdir : Proc unit :=
  fun w => (Return tt, set_output_dir (Some (default ∅ (output_dir w))) w).

(** A file [glob('*.md')] matches: an entry of the directory itself (the
    pattern does not descend into subdirectories) whose name ends in
    [.md]. *)
Definition glob_md (name : str) : bool :=
  endswith (py ".md") name && negb (has_char 47 name).

(** A file that [glob('*.md')] does not match. *)
Definition not_md (entry : str * str) : Prop := glob_md (fst entry) = false.

#[global] Instance not_md_dec (entry : str * str) : Decision (not_md entry) :=
  bool_eq_dec (glob_md (fst entry)) false.

(** [for old_file in output_dir.glob('*.md'): old_file.unlink()]. *)
Definition unlink_md (d : gmap str str) : gmap str str := filter not_md d.

Definition clear_md : Proc unit :=
  fun w => (Return tt, set_output_dir (unlink_md <$> output_dir w) w).

(** [with open(output_dir / name, 'w', encoding='utf-8') as f:
    f.write(text)].  Opening raises when the directory does not exist, when
    the name has a NUL ([ValueError]) and when it is longer than 255 bytes
    ([OSError]).  A name with a separator is a path, and a name with a
    surrogate is translated by the file system encoding: both are resolved
    outside the directory.  Once the file is open it exists and is empty;
    writing raises [UnicodeEncodeError] when the text has a surrogate. *)
Definition write_file (name : str) (text : str) : Proc unit :=
  fun w =>
    match output_dir w with
    | None => (Uncaught, w)
    | Some d =>
        if has_char 0 name then (Uncaught, w)
        else if has_char 47 name || negb (encodable name) then
          let '(o, d') := elsewhere w (elsewhere_uses w) name text d in
          (o, {| response_file := response_file w; output_dir := Some d';
                 stdout := stdout w; clock := clock w; ticks := ticks w;
                 elsewhere := elsewhere w;
                 elsewhere_uses := S (elsewhere_uses w) |})
        else if (255 <? utf8_length name)%N then (Uncaught, w)
        else if encodable text then
          (Return tt, set_output_dir (Some (<[name := text]> d)) w)
        else (Uncaught, set_output_dir (Some (<[name := []]> d)) w)
    end.

(** [for x in l: body(x)]. *)
Fixpoint for_each {A} (l : list A) (body : A -> Proc unit) : Proc unit :=
  match l with
  | [] => ret tt
  | x :: l' => body x ;; for_each l' body
  end.

(** ** Sorting *)

(** [sorted(l, key=key, reverse=True)] for string keys: the stable sort in
    descending order of the key; records with equal keys keep the order
    they have in [l]. *)
Section Sorted.
Context {A : Type} (key : A -> str).

Fixpoint insert_desc (x : A) (l : list A) : list A :=
  match l with
  | [] => [x]
  | y :: l' => if ltb (key x) (key y) then y :: insert_desc x l'
               else x :: y :: l'
  end.

Definition sorted_reverse (l : list A) : list A :=
  foldr insert_desc [] l.

(** [x] is not below [y]: the order between an earlier and a later
    element of a list sorted with [reverse=True]. *)
Definition not_below (x y : A) : Prop := ltb (key x) (key y) = false.
End Sorted.

(** [enumerate(l, start)]. *)
Fixpoint enumerate {A} (start : nat) (l : list A) : list (nat * A) :=
  match l with
  | [] => []
  | x :: l' => (start, x) :: enumerate (S start) l'
  end.

(** ** The formatter (lines 12 to 168) *)

Section Formatter.

(** [datetime.fromisoformat]: [None] when it raises. *)
Variable fromisoformat : str -> option datetime.

(** [json.load] on the text of the file: [None] when it raises
    [JSONDecodeError]. *)
Variable json_load : str -> option Response.

(** Lines 12 to 20. *)
Definition format_timestamp (timestamp_str : option str) : str :=
  if negb (truthy_str timestamp_str) then py "N/A"
  else
    let s := default [] timestamp_str in
    match fromisoformat (replace 90 (py "+00:00") s) with
    | Some dt => strftime dt
    | None => s
    end.

(** [f"{d.get('name', 'N/A')} ({d.get('email', 'N/A')})"]. *)
Definition name_and_email (d : gmap str str) : str :=
  default (py "N/A") (d !! py "name") ++ py " (" ++
  default (py "N/A") (d !! py "email") ++ py ")".

(** Lines 23 to 65; the list is [content] before the final join. *)
Definition format_test_case_lines (test_case : TestCase) : list str :=
  [ py "# " ++ default (py "Untitled Test Case") (description test_case)
      ++ [10%N];
    py "## Metadata" ++ [10%N];
    py "- **UUID**: `" ++ default (py "N/A") (uuid test_case) ++ py "`";
    py "- **Status**: " ++
      (if truthy_flag (disabled test_case)
       then icon_disabled ++ py " Disabled"
       else icon_enabled ++ py " Enabled");
    py "- **Created**: " ++ format_timestamp (createdAt test_case) ]
  ++ (let created_by := default ∅ (createdBy test_case) in
      if truthy_dict created_by
      then [ py "- **Created By**: " ++ name_and_email created_by ]
      else [])
  ++ (if truthy_str (modifiedAt test_case)
      then [ py "- **Modified**: " ++ format_timestamp (modifiedAt test_case) ]
           ++ (let modified_by := default ∅ (modifiedBy test_case) in
               if truthy_dict modified_by
               then [ py "- **Modified By**: " ++ name_and_email modified_by ]
               else [])
      else [])
  ++ (let labels := default [] (labels test_case) in
      if truthy_list labels
      then [ py "- **Labels**: " ++ join (py ", ") labels ]
      else [])
  ++ [ [] ]
  ++ [ py "## Test Steps" ++ [10%N] ]
  ++ (let custom_steps := default [] (customSteps test_case) in
      if truthy custom_steps
      then [ py "```"; custom_steps; py "```" ]
      else [ py "*No steps defined*" ])
  ++ [ [] ].

Definition format_test_case (test_case : TestCase) : str :=
  join [10%N] (format_test_case_lines test_case).

(** Lines 96 and 97. *)
Definition step_count (tc : TestCase) : nat :=
  let steps := default [] (customSteps tc) in
  if truthy steps
  then length (List.filter (fun s => truthy (strip s)) (split 10 steps))
  else 0%nat.

(** The key of line 80. *)
Definition created_key (x : TestCase) : str := default [] (createdAt x).

(** Lines 78 to 82. *)
Definition sorted_cases (test_cases : list TestCase) : list TestCase :=
  sorted_reverse created_key test_cases.

(** Lines 85 to 100: the lines of one entry. *)
Definition index_entry (i : nat) (tc : TestCase) : list str :=
  let status_icon :=
    if truthy_flag (disabled tc) then icon_disabled else icon_enabled in
  let desc := default (py "Untitled") (description tc) in
  let uuid := default (py "N/A") (uuid tc) in
  let created := format_timestamp (createdAt tc) in
  [ py "## " ++ of_nat i ++ py ". " ++ status_icon ++ py " " ++ desc
      ++ [10%N];
    py "- **UUID**: `" ++ uuid ++ py "`";
    py "- **File**: [`" ++ uuid ++ py ".md`](./" ++ uuid ++ py ".md)";
    py "- **Created**: " ++ created;
    py "- **Steps**: " ++ of_nat (step_count tc);
    [] ].

(** Lines 72 to 75. *)
Definition index_header (now : datetime) (test_cases : list TestCase)
    (metadata : Data) : list str :=
  [ py "# Test Cases Index" ++ [10%N];
    py "**Last Updated**: " ++ strftime now ++ [10%N];
    py "**Total Test Cases**: " ++
      of_Z (default (Z.of_nat (length test_cases)) (totalElements metadata))
      ++ [10%N];
    py "---" ++ [10%N] ].

(** Lines 68 to 102; [now] is the reading of [datetime.utcnow()] on
    line 73. *)
Definition create_index_lines (now : datetime) (test_cases : list TestCase)
    (metadata : Data) : list str :=
  index_header now test_cases metadata
  ++ concat (map (fun '(i, tc) => index_entry i tc)
                 (enumerate 1 (sorted_cases test_cases))).

Definition create_index (now : datetime) (test_cases : list TestCase)
    (metadata : Data) : str :=
  join [10%N] (create_index_lines now test_cases metadata).

(** Lines 144 to 157: the body of the loop over the records. *)
Definition save_test_case (tc : TestCase) : Proc unit :=
  let uuid := uuid tc in
  if negb (truthy_str uuid) then
    print SkippingWithoutUUID
  else
    let filename := default [] uuid ++ py ".md" in
    let content := format_test_case tc in
    write_file filename content ;;
    let desc := default (py "Untitled") (description tc) in
    print (Saved desc).

(** Lines 105 to 168. *)
Definition main : Proc unit :=
  file <- read_response_file ;;
  match file with
  | None => print ErrorNotFound ;; exit 1
  | Some text =>
    match json_load text with
    | None => print ErrorInvalidJSON ;; exit 1
    | Some response =>
      print ApiResponseReceived ;;
      print (StatusLine (status response)) ;;
      let test_cases :=
        default [] (content (default empty_dict (data response))) in
      if negb (truthy_list test_cases) then
        print NoTestCasesFound ;;
        print (ResponseKeys (response_keys response)) ;;
        match data response with
        | Some d => print (DataKeys (data_keys d))
        | None => ret tt
        end
      else
        print (Found (length test_cases)) ;;
        mkdir ;;
        clear_md ;;
        for_each test_cases save_test_case ;;
        let metadata := default empty_dict (data response) in
        now <- utcnow ;;
        write_file (py "INDEX.md") (create_index now test_cases metadata) ;;
        print CreatedIndex ;;
        print (SuccessfullyProcessed (length test_cases))
    end
  end.

(** Lines 171 to 176: the module calls [main()] twice; the second call
    runs only when the first one returns. *)
Definition script : Proc unit := main ;; main.

End Formatter.

(** ** Closed forms used by the specification *)

(** The specification's step count: the lines of the text, split at
    newlines, that contain a character that is not white space. *)
Definition nonblank (line : str) : bool :=
  existsb (fun c => negb (isspace c)) line.

Definition nonblank_lines (text : str) : nat :=
  length (List.filter nonblank (split 10 text)).

(** Decision procedure for [occurs_in]. *)
Fixpoint occurs_inb (needle s : str) : bool :=
  startswith needle s ||
  match s with
  | [] => false
  | _ :: s' => occurs_inb needle s'
  end.


Section ClosedForms.

Variable fromisoformat : str -> option datetime.








End ClosedForms.

(** The world after the input file has been replaced. *)
Definition with_response_file (text : option str) (w : World) : World :=
  {| response_file := text; output_dir := output_dir w;
     stdout := stdout w; clock := clock w; ticks := ticks w;
     elsewhere := elsewhere w; elsewhere_uses := elsewhere_uses w |}.

(** The world with more console output. *)
Definition with_stdout (out : list Msg) (w : World) : World :=
  {| response_file := response_file w; output_dir := output_dir w;
     stdout := out; clock := clock w; ticks := ticks w;
     elsewhere := elsewhere w; elsewhere_uses := elsewhere_uses w |}.

(** ** Instances of the library functions, for the examples *)

Module Examples.

(** A parser for [YYYY-MM-DDTHH:MM:SS], optionally followed by [+00:00]. *)
Definition digit (c : N) : option nat :=
  if isdigit c then Some (N.to_nat (c - 48)) else None.

Fixpoint number (acc : nat) (s : str) : option nat :=
  match s with
  | [] => Some acc
  | c :: s' => match digit c with
               | Some d => number (10 * acc + d) s'
               | None => None
               end
  end.

Definition field (start len : nat) (s : str) : option nat :=
  let f := take len (drop start s) in
  if Nat.eqb (length f) len then number 0 f else None.

Definition in_range (dt : datetime) : bool :=
  Nat.leb 1 (year dt) && Nat.leb (year dt) 9999 &&
  Nat.leb 1 (month dt) && Nat.leb (month dt) 12 &&
  Nat.leb 1 (day dt) && Nat.leb (day dt) 31 &&
  Nat.leb (hour dt) 23 && Nat.leb (minute dt) 59 &&
  Nat.leb (second dt) 59.

Definition separators (s : str) : bool :=
  bool_decide (s !! 4%nat = Some 45%N /\ s !! 7%nat = Some 45%N /\
               s !! 10%nat = Some 84%N /\ s !! 13%nat = Some 58%N /\
               s !! 16%nat = Some 58%N /\
               (drop 19 s = [] \/ drop 19 s = py "+00:00")).

Definition iso_seconds (s : str) : option datetime :=
  if separators s then
    match field 0 4 s, field 5 2 s, field 8 2 s,
          field 11 2 s, field 14 2 s, field 17 2 s with
    | Some Y, Some M, Some D, Some h, Some m, Some sec =>
        let dt := mkDatetime Y M D h m sec in
        if in_range dt then Some dt else None
    | _, _, _, _, _, _ => None
    end
  else None.

Definition noon : datetime := mkDatetime 2024 5 6 12 0 0.

(** Records. *)
Definition blank : TestCase :=
  mkTestCase None None None None None None None None None.

Definition tcA : TestCase :=
  mkTestCase (Some (py "a")) (Some (py "Login")) None
    (Some (py "2024-01-02T03:04:05Z")) None None None None
    (Some (py "step1" ++ [10%N] ++ py "step2" ++ [10%N; 10%N] ++ py "step3")).

Definition tcB : TestCase :=
  mkTestCase (Some (py "b")) (Some (py "Logout")) (Some true)
    (Some (py "2024-03-04T05:06:07Z")) None
    (Some {[ py "name" := py "Ann" ]}) None (Some [py "smoke"; py "ui"])
    None.

Definition bare : TestCase :=
  mkTestCase (Some (py "c")) None None None None None None None None.

Definition signed : TestCase :=
  mkTestCase (Some (py "d")) None None None (Some (py "soon"))
    (Some {[ py "id" := py "7" ]}) (Some {[ py "name" := py "Bo" ]})
    None None.

Definition orphan : TestCase :=
  mkTestCase None (Some (py "Orphan")) None None None None None None None.

Definition tcA' : TestCase :=
  mkTestCase (Some (py "a")) (Some (py "Login again")) None
    None None None None None None.

Definition response_of (l : list TestCase) : Response :=
  mkResponse (Some (py "SUCCESS"))
    (Some (mkData (Some l) None [py "content"; py "totalPages"]))
    [py "status"; py "data"].

(** Records whose uuid is no file name, and records named like the index. *)
Definition slashed : TestCase :=
  mkTestCase (Some (py "N/A")) (Some (py "Slashed")) None None None None None
    None None.

Definition nul : TestCase :=
  mkTestCase (Some [110%N; 0%N]) None None None None None None None None.

Definition index1 : TestCase :=
  mkTestCase (Some (py "INDEX")) (Some (py "First")) None None None None None
    None None.

Definition index2 : TestCase :=
  mkTestCase (Some (py "INDEX")) (Some (py "Second")) None None None None None
    None None.

(** A response without records whose status is a lone surrogate (the JSON
    string with the escape for U+D800). *)
Definition surrogate_status : Response :=
  mkResponse (Some [55296%N]) (Some (mkData (Some []) None [py "content"]))
    [py "status"; py "data"].

(** A loader for the documents of the examples; the documents are named
    rather than parsed. *)
Definition loader (text : str) : option Response :=
  if bool_decide (text = py "A,B") then Some (response_of [tcA; tcB])
  else if bool_decide (text = py "A") then Some (response_of [tcA])
  else if bool_decide (text = py "B") then Some (response_of [tcB])
  else if bool_decide (text = py "orphan,A") then Some (response_of [orphan; tcA])
  else if bool_decide (text = py "A,A'") then Some (response_of [tcA; tcA'])
  else if bool_decide (text = py "empty") then Some (response_of [])
  else if bool_decide (text = py "N/A") then Some (response_of [slashed])
  else if bool_decide (text = py "NUL") then Some (response_of [nul])
  else if bool_decide (text = py "INDEX,B")
  then Some (response_of [index1; tcB])
  else if bool_decide (text = py "INDEX,INDEX")
  then Some (response_of [index1; index2])
  else if bool_decide (text = py "surrogate") then Some surrogate_status
  else None.

(** A first run: the input is present, the output directory is not, and
    around it there is nothing a path could lead to: opening a file outside
    the directory raises. *)
Definition fresh (text : str) : World :=
  mkWorld (Some text) None [] (fun _ => noon) 0
    (fun _ _ _ d => (Uncaught, d)) 0.

End Examples.

(** ** Definitions for the properties beyond the claims *)


(** ** Inputs on which nothing raises *)


Definition encodable_opt (o : option str) : bool := encodable (default [] o).





(** The record with another creator, time of modification or labels. *)
Definition with_createdBy (d : option (gmap str str)) (tc : TestCase)
    : TestCase :=
  {| uuid := uuid tc; description := description tc; disabled := disabled tc;
     createdAt := createdAt tc; modifiedAt := modifiedAt tc;
     createdBy := d; modifiedBy := modifiedBy tc;
     labels := labels tc; customSteps := customSteps tc |}.

Definition with_modifiedAt (t : option str) (tc : TestCase) : TestCase :=
  {| uuid := uuid tc; description := description tc; disabled := disabled tc;
     createdAt := createdAt tc; modifiedAt := t;
     createdBy := createdBy tc; modifiedBy := modifiedBy tc;
     labels := labels tc; customSteps := customSteps tc |}.

Definition with_labels (l : option (list str)) (tc : TestCase) : TestCase :=
  {| uuid := uuid tc; description := description tc; disabled := disabled tc;
     createdAt := createdAt tc; modifiedAt := modifiedAt tc;
     createdBy := createdBy tc; modifiedBy := modifiedBy tc;
     labels := l; customSteps := customSteps tc |}.




(** The records whose sort key is [k]. *)
Definition with_key (k : str) (l : list TestCase) : list TestCase :=
  List.filter (fun x => bool_decide (created_key x = k)) l.

(** The record with its empty values taken out: a false flag, an empty
    createdAt, modifiedAt or customSteps, an empty createdBy or modifiedBy
    object and an empty list of labels become absent keys; uuid and
    description are kept as they are. *)
Definition drop_empty (tc : TestCase) : TestCase :=
  {| uuid := uuid tc;
     description := description tc;
     disabled := if truthy_flag (disabled tc) then Some true else None;
     createdAt := if truthy_str (createdAt tc) then createdAt tc else None;
     modifiedAt := if truthy_str (modifiedAt tc) then modifiedAt tc else None;
     createdBy := match createdBy tc with
                  | Some d => if truthy_dict d then Some d else None
                  | None => None
                  end;
     modifiedBy := match modifiedBy tc with
                   | Some d => if truthy_dict d then Some d else None
                   | None => None
                   end;
     labels := match labels tc with
               | Some (x :: l) => Some (x :: l)
               | _ => None
               end;
     customSteps :=
       if truthy_str (customSteps tc) then customSteps tc else None |}.

(** The record with another text of steps. *)
Definition with_steps (steps : option str) (tc : TestCase) : TestCase :=
  {| uuid := uuid tc; description := description tc; disabled := disabled tc;
     createdAt := createdAt tc; modifiedAt := modifiedAt tc;
     createdBy := createdBy tc; modifiedBy := modifiedBy tc;
     labels := labels tc; customSteps := steps |}.

Module MoreExamples.

(** A parser that, unlike [Examples.iso_seconds], has an answer of its own
    for every text with a Z in it. *)
Definition zulu (s : str) : option datetime :=
  if bool_decide (Exists (fun c => c = 90%N) s) then Some Examples.noon
  else Examples.iso_seconds s.

(** Records with empty values, and records created at the same time. *)
Definition hollow : TestCase :=
  mkTestCase (Some (py "h")) (Some (py "Hollow")) (Some false) (Some [])
    (Some []) (Some ∅) (Some {[ py "name" := py "Cy" ]}) (Some []) (Some []).

Definition twin1 : TestCase :=
  mkTestCase (Some (py "t1")) (Some (py "Twin one")) None
    (Some (py "2024-01-02T03:04:05Z")) None None None None None.

Definition twin2 : TestCase :=
  mkTestCase (Some (py "t2")) (Some (py "Twin two")) None
    (Some (py "2024-01-02T03:04:05Z")) None None None None
    (Some (py "open page" ++ [10%N] ++ py "  " ++ [10%N] ++ py "click")).

(** A loader that knows two more documents. *)
Definition loader (text : str) : option Response :=
  if bool_decide (text = py "orphan,twins")
  then Some (mkResponse None
               (Some (mkData (Some [Examples.orphan; twin1; twin2])
                        (Some 40%Z) [py "content"; py "totalElements"]))
               [py "data"])
  else if bool_decide (text = py "A,NUL,B")
  then Some (Examples.response_of [Examples.tcA; Examples.nul; Examples.tcB])
  else Examples.loader text.

(** A directory with files of an earlier run and a file of another kind. *)
Definition earlier : gmap str str :=
  {[ py "old.md" := py "old"; py "INDEX.md" := py "index";
     py "notes.txt" := py "notes" ]}.

Definition second (text : str) : World :=
  mkWorld (Some text) (Some earlier) [] (fun _ => Examples.noon) 0
    (fun _ _ _ d => (Uncaught, d)) 0.

End MoreExamples.

(** * Properties *)

(** ** Strings *)

Section StringFacts.

Local Open Scope N_scope.

Lemma ltb_irrefl (a : str) : ltb a a = false.
Proof.
  induction a as [|x a IH]; simpl; [reflexivity|].
  rewrite N.ltb_irrefl, N.eqb_refl, IH. reflexivity.
Qed.

Lemma ltb_asym (a b : str) : ltb a b = true -> ltb b a = false.
Proof.
  revert b. induction a as [|x a IH]; intros [|y b]; simpl; try congruence.
  intros H. apply orb_true_iff in H. apply orb_false_iff.
  destruct H as [H|H].
  - apply N.ltb_lt in H. split.
    + apply N.ltb_ge. lia.
    + apply andb_false_iff. left. apply N.eqb_neq. lia.
  - apply andb_true_iff in H. destruct H as [E H].
    apply N.eqb_eq in E. subst y. split.
    + apply N.ltb_irrefl.
    + rewrite N.eqb_refl. simpl. auto.
Qed.

(** [>=] on strings is transitive. *)
Lemma geb_trans (a b c : str) :
  ltb a b = false -> ltb b c = false -> ltb a c = false.
Proof.
  revert b c. induction a as [|x a IH]; intros [|y b] [|z c]; simpl;
    try congruence.
  intros H1 H2.
  apply orb_false_iff in H1. destruct H1 as [L1 E1].
  apply orb_false_iff in H2. destruct H2 as [L2 E2].
  apply N.ltb_ge in L1. apply N.ltb_ge in L2.
  apply orb_false_iff. split.
  - apply N.ltb_ge. lia.
  - destruct (N.eqb_spec x z) as [->|Hne]; simpl; [|reflexivity].
    assert (y = z) by lia. subst y.
    rewrite N.eqb_refl in E1, E2. simpl in E1, E2. eauto.
Qed.

Lemma ltb_empty_l (s : str) : truthy s = true -> ltb [] s = true.
Proof. destruct s; simpl; congruence. Qed.

Lemma startswith_app (p s : str) : startswith p (p ++ s) = true.
Proof.
  induction p as [|c p IH]; simpl; [reflexivity|].
  rewrite N.eqb_refl. exact IH.
Qed.

Lemma startswith_inv (p s : str) :
  startswith p s = true -> exists post, s = p ++ post.
Proof.
  revert s. induction p as [|c p IH]; intros s H; simpl in *.
  - exists s. reflexivity.
  - destruct s as [|c' s]; [discriminate|].
    apply andb_true_iff in H. destruct H as [E H].
    apply N.eqb_eq in E. subst c'.
    destruct (IH _ H) as [post ->]. exists post. reflexivity.
Qed.


Lemma occurs_inb_complete (needle s : str) :
  occurs_in needle s -> occurs_inb needle s = true.
Proof.
  intros (pre & post & ->). induction pre as [|c pre IH].
  - change ([] ++ needle ++ post) with (needle ++ post).
    assert (U : forall t, occurs_inb needle t =
                startswith needle t ||
                match t with [] => false | _ :: t' => occurs_inb needle t' end)
      by (intros []; reflexivity).
    rewrite U, startswith_app. reflexivity.
  - simpl. rewrite IH. apply orb_true_r.
Qed.

Lemma occurs_inb_sound (needle s : str) :
  occurs_inb needle s = true -> occurs_in needle s.
Proof.
  induction s as [|c s IH]; simpl; intros H.
  - rewrite orb_false_r in H. destruct (startswith_inv _ _ H) as [post E].
    exists [], post. exact E.
  - apply orb_true_iff in H. destruct H as [H|H].
    + destruct (startswith_inv _ _ H) as [post E]. exists [], post. exact E.
    + destruct (IH H) as (pre & post & ->). exists (c :: pre), post.
      reflexivity.
Qed.

Lemma occurs_in_refl_app (pre needle post : str) :
  occurs_in needle (pre ++ needle ++ post).
Proof. exists pre, post. reflexivity. Qed.

Lemma occurs_in_trans (a b c : str) :
  occurs_in a b -> occurs_in b c -> occurs_in a c.
Proof.
  intros (p1 & q1 & ->) (p2 & q2 & ->).
  exists (p2 ++ p1), (q1 ++ q2). rewrite <- !app_assoc. reflexivity.
Qed.

(** A line of a joined text occurs in the text. *)
Lemma occurs_in_join (sep line : str) (lines : list str) :
  In line lines -> occurs_in line (join sep lines).
Proof.
  induction lines as [|x l IH]; simpl; [tauto|].
  intros [->|H].
  - destruct l; [exists [], []; rewrite app_nil_r; reflexivity|].
    exists [], (sep ++ join sep (l :: l0)). reflexivity.
  - destruct l as [|y l]; [destruct H|].
    destruct (IH H) as (pre & post & E).
    exists (x ++ sep ++ pre), post. rewrite E.
    rewrite <- !app_assoc. reflexivity.
Qed.

Lemma truthy_rev (s : str) : truthy (rev s) = truthy s.
Proof.
  destruct s as [|c s]; [reflexivity|]. simpl.
  destruct (rev s ++ [c]) eqn:E; [|reflexivity].
  apply app_eq_nil in E. destruct E; discriminate.
Qed.

Lemma truthy_lstrip (s : str) : truthy (lstrip s) = nonblank s.
Proof.
  unfold nonblank. induction s as [|c s IH]; simpl; [reflexivity|].
  destruct (isspace c); simpl; [exact IH|reflexivity].
Qed.

Lemma nonblank_lstrip (s : str) : nonblank (lstrip s) = nonblank s.
Proof.
  unfold nonblank. induction s as [|c s IH]; simpl; [reflexivity|].
  destruct (isspace c) eqn:E; simpl; [exact IH|].
  rewrite E. reflexivity.
Qed.

Lemma nonblank_rev (s : str) : nonblank (rev s) = nonblank s.
Proof.
  unfold nonblank. induction s as [|c s IH]; simpl; [reflexivity|].
  rewrite existsb_app, IH. simpl. rewrite orb_false_r. apply orb_comm.
Qed.

(** [s.strip()] is non-empty exactly when [s] has a character that is not
    white space. *)
Lemma truthy_strip (s : str) : truthy (strip s) = nonblank s.
Proof.
  unfold strip, rstrip.
  rewrite truthy_rev, truthy_lstrip, nonblank_rev, nonblank_lstrip.
  reflexivity.
Qed.


End StringFacts.

(** ** Timestamps *)

Section DatetimeFacts.

Lemma zpad2_numeric (n : nat) : (n <= 99)%nat -> numeric 2 (zpad 2 n) = true.
Proof.
  intros H.
  assert (A : forallb (fun n => numeric 2 (zpad 2 n)) (seq 0 100) = true)
    by (vm_compute; reflexivity).
  rewrite forallb_forall in A. apply A. apply in_seq. lia.
Qed.

Lemma zpad4_numeric (n : nat) :
  (n <= 9999)%nat -> numeric 4 (zpad 4 n) = true.
Proof.
  intros H.
  assert (A : forallb (fun n => numeric 4 (zpad 4 n)) (seq 0 10000) = true)
    by (vm_compute; reflexivity).
  rewrite forallb_forall in A. apply A. apply in_seq.
  change 10000%nat with (S 9999). lia.
Qed.

Lemma of_nat_digits (n : nat) :
  (n <= 9999)%nat ->
  forallb isdigit (of_nat n) = true /\ (1 <= length (of_nat n) <= 4)%nat.
Proof.
  intros H.
  assert (A : forallb (fun n => forallb isdigit (of_nat n)
                                && Nat.leb 1 (length (of_nat n))
                                && Nat.leb (length (of_nat n)) 4)
                (seq 0 10000) = true)
    by (vm_compute; reflexivity).
  rewrite forallb_forall in A. specialize (A n).
  rewrite !andb_true_iff, !Nat.leb_le in A.
  assert (I : In n (seq 0 10000))
    by (apply in_seq; change 10000%nat with (S 9999); lia).
  destruct (A I) as [[A1 A2] A3]. auto.
Qed.

Lemma of_nat_four_digits (n : nat) :
  (1000 <= n <= 9999)%nat -> numeric 4 (of_nat n) = true.
Proof.
  intros H.
  assert (A : forallb (fun n => implb (Nat.leb 1000 n) (numeric 4 (of_nat n)))
                (seq 0 10000) = true)
    by (vm_compute; reflexivity).
  rewrite forallb_forall in A.
  assert (I : In n (seq 0 10000))
    by (apply in_seq; change 10000%nat with (S 9999); lia).
  specialize (A n I). destruct (Nat.leb 1000 n) eqn:E; [exact A|].
  apply Nat.leb_gt in E. lia.
Qed.

Lemma of_nat_short (n : nat) :
  (n < 1000)%nat -> (length (of_nat n) <= 3)%nat.
Proof.
  intros H.
  assert (A : forallb (fun n => Nat.leb (length (of_nat n)) 3) (seq 0 1000)
              = true)
    by (vm_compute; reflexivity).
  rewrite forallb_forall in A. apply Nat.leb_le, A, in_seq. lia.
Qed.

Lemma numeric_length (w : nat) (s : str) : numeric w s = true -> length s = w.
Proof.
  unfold numeric. intros H. apply andb_true_iff in H. destruct H as [H _].
  apply Nat.eqb_eq. exact H.
Qed.

(** [strftime] on a [datetime] object prints the pattern with a year of one
    to four digits. *)
Lemma strftime_printed_pattern (dt : datetime) :
  valid dt -> printed_pattern (strftime dt).
Proof.
  intros (Hy & Hm & Hd & Hh & Hmi & Hs).
  destruct (of_nat_digits (year dt)) as [Y1 Y2]; [lia|].
  exists (of_nat (year dt)), (zpad 2 (month dt)), (zpad 2 (day dt)),
         (zpad 2 (hour dt)), (zpad 2 (minute dt)), (zpad 2 (second dt)).
  split; [exact Y1|]. split; [exact Y2|].
  repeat split; try reflexivity; apply zpad2_numeric; lia.
Qed.

(** From the year 1000 on this is the fixed pattern. *)
Lemma strftime_fixed_pattern (dt : datetime) :
  valid dt -> (1000 <= year dt)%nat -> fixed_pattern (strftime dt).
Proof.
  intros (Hy & Hm & Hd & Hh & Hmi & Hs) Hk.
  exists (of_nat (year dt)), (zpad 2 (month dt)), (zpad 2 (day dt)),
         (zpad 2 (hour dt)), (zpad 2 (minute dt)), (zpad 2 (second dt)).
  split; [apply of_nat_four_digits; lia|].
  repeat split; try reflexivity; apply zpad2_numeric; lia.
Qed.

Lemma fixed_pattern_length (s : str) : fixed_pattern s -> length s = 23%nat.
Proof.
  intros (Y & M & D & h & m & sec & HY & HM & HD & Hh & Hm & Hs & ->).
  apply numeric_length in HY, HM, HD, Hh, Hm, Hs.
  rewrite !length_app, HY, HM, HD, Hh, Hm, Hs. reflexivity.
Qed.

(** Before the year 1000 it is not. *)
Lemma strftime_not_fixed_pattern (dt : datetime) :
  valid dt -> (year dt < 1000)%nat -> ~ fixed_pattern (strftime dt).
Proof.
  intros (Hy & Hm & Hd & Hh & Hmi & Hs) Hk F.
  apply fixed_pattern_length in F. unfold strftime in F.
  pose proof (of_nat_short (year dt)) as L.
  pose proof (numeric_length _ _ (zpad2_numeric (month dt) ltac:(lia))) as L1.
  pose proof (numeric_length _ _ (zpad2_numeric (day dt) ltac:(lia))) as L2.
  pose proof (numeric_length _ _ (zpad2_numeric (hour dt) ltac:(lia))) as L3.
  pose proof (numeric_length _ _ (zpad2_numeric (minute dt) ltac:(lia))) as L4.
  pose proof (numeric_length _ _ (zpad2_numeric (second dt) ltac:(lia))) as L5.
  rewrite !length_app, L1, L2, L3, L4, L5 in F.
  change (length (py "-")) with 1%nat in F.
  change (length (py " ")) with 1%nat in F.
  change (length (py ":")) with 1%nat in F.
  change (length (py " UTC")) with 4%nat in F.
  specialize (L ltac:(lia)). lia.
Qed.

Lemma in_range_valid (dt : datetime) :
  Examples.in_range dt = true -> valid dt.
Proof.
  unfold Examples.in_range, valid. intros H.
  repeat (apply andb_true_iff in H; destruct H as [H ?]).
  repeat match goal with
         | X : Nat.leb _ _ = true |- _ => apply Nat.leb_le in X
         end.
  repeat split; assumption.
Qed.

Lemma iso_seconds_valid (s : str) (dt : datetime) :
  Examples.iso_seconds s = Some dt -> valid dt.
Proof.
  unfold Examples.iso_seconds. intros H.
  repeat match type of H with
         | context [match ?x with _ => _ end] =>
             destruct x eqn:?; try discriminate
         end.
  injection H as <-. apply in_range_valid. assumption.
Qed.

End DatetimeFacts.

(** ** Sorting *)

Section SortedFacts.
Context {A : Type} (key : A -> str).

Lemma insert_desc_perm (x : A) (l : list A) :
  Permutation (insert_desc key x l) (x :: l).
Proof.
  induction l as [|y l IH]; simpl; [reflexivity|].
  destruct (ltb (key x) (key y)); [|reflexivity].
  rewrite IH. apply perm_swap.
Qed.

Lemma sorted_reverse_perm (l : list A) : Permutation (sorted_reverse key l) l.
Proof.
  induction l as [|x l IH]; simpl; [reflexivity|].
  rewrite insert_desc_perm, IH. reflexivity.
Qed.

Lemma insert_desc_sorted (x : A) (l : list A) :
  StronglySorted (not_below key) l -> StronglySorted (not_below key) (insert_desc key x l).
Proof.
  induction 1 as [|y l Hs IH Hy]; simpl.
  - constructor; constructor.
  - destruct (ltb (key x) (key y)) eqn:E.
    + constructor; [exact IH|].
      rewrite Forall_forall. intros z Hz.
      rewrite (insert_desc_perm x l) in Hz.
      apply elem_of_cons in Hz. destruct Hz as [->|Hz].
      * apply ltb_asym. exact E.
      * rewrite Forall_forall in Hy. apply Hy, Hz.
    + constructor; [constructor; assumption|].
      constructor; [exact E|].
      rewrite Forall_forall in Hy |- *. intros z Hz.
      eapply geb_trans; [exact E|]. apply Hy, Hz.
Qed.

Lemma sorted_reverse_sorted (l : list A) :
  StronglySorted (not_below key) (sorted_reverse key l).
Proof.
  induction l as [|x l IH]; simpl; [constructor|].
  apply insert_desc_sorted, IH.
Qed.

(** In a sorted list, an earlier position is not below a later one. *)
Lemma sorted_lookup (l : list A) (i j : nat) (a b : A) :
  StronglySorted (not_below key) l ->
  l !! i = Some a -> l !! j = Some b -> (i < j)%nat -> not_below key a b.
Proof.
  intros Hs. revert i j. induction Hs as [|x l Hs IH Hx]; intros i j Hi Hj Hlt.
  - discriminate.
  - destruct j as [|j]; [lia|]. destruct i as [|i]; simpl in *.
    + injection Hi as <-. rewrite Forall_forall in Hx. apply Hx.
      eapply list_elem_of_lookup_2. exact Hj.
    + apply (IH i j); [assumption..|lia].
Qed.

(** The record with the larger key comes first. *)
Lemma sorted_reverse_order (l : list A) (i j : nat) (a b : A) :
  sorted_reverse key l !! i = Some a ->
  sorted_reverse key l !! j = Some b ->
  ltb (key b) (key a) = true -> (i < j)%nat.
Proof.
  intros Hi Hj Hlt.
  destruct (Nat.lt_trichotomy i j) as [H|[H|H]]; [exact H|exfalso..].
  - subst j. rewrite Hi in Hj. injection Hj as <-.
    rewrite ltb_irrefl in Hlt. discriminate.
  - pose proof (sorted_lookup _ _ _ _ _ (sorted_reverse_sorted l) Hj Hi H) as N.
    unfold not_below in N. congruence.
Qed.

(** Records with equal keys keep the order of the input. *)
Lemma insert_desc_equal_keys (x : A) (l : list A) :
  Forall (fun y => key y = key x) l -> insert_desc key x l = x :: l.
Proof.
  destruct 1 as [|y l Hy _]; simpl; [reflexivity|].
  rewrite Hy, ltb_irrefl. reflexivity.
Qed.

End SortedFacts.

Lemma enumerate_lookup {A} (l : list A) (start i : nat) (a : A) :
  l !! i = Some a -> enumerate start l !! i = Some ((start + i)%nat, a).
Proof.
  revert start i. induction l as [|x l IH]; intros start i H; [discriminate|].
  destruct i as [|i]; simpl in *.
  - injection H as <-. rewrite Nat.add_0_r. reflexivity.
  - rewrite (IH (S start) i H). f_equal. f_equal. lia.
Qed.



(** ** What can be encoded *)










Section EncodableFacts.

Variable fromisoformat : str -> option datetime.


Lemma default_encodable (o : option str) (lit : string) :
  encodable_opt o = true -> encodable (default (py lit) o) = true ->
  encodable (default (py lit) o) = true.
Proof. auto. Qed.







End EncodableFacts.

(** ** The output directory *)





Section DirectoryFacts.

Variable fromisoformat : str -> option datetime.















End DirectoryFacts.

(** ** Running the script *)






Section RunFacts.

Variable fromisoformat : str -> option datetime.
Variable json_load : str -> option Response.

Local Open Scope proc_scope.




(** The input file is missing. *)
Lemma main_not_found (w : World) :
  response_file w = None ->
  main fromisoformat json_load w =
  (SystemExit 1, with_stdout (stdout w ++ [ErrorNotFound]) w).
Proof.
  intros H. unfold main, bind, read_response_file. rewrite H. reflexivity.
Qed.

(** The input file is not JSON. *)
Lemma main_invalid_json (w : World) (text : str) :
  response_file w = Some text -> json_load text = None ->
  main fromisoformat json_load w =
  (SystemExit 1, with_stdout (stdout w ++ [ErrorInvalidJSON]) w).
Proof.
  intros H1 H2. unfold main, bind, read_response_file. rewrite H1, H2.
  reflexivity.
Qed.




End RunFacts.

Section ScriptFacts.

Variable fromisoformat : str -> option datetime.
Variable json_load : str -> option Response.






(** The first call ends the process when the input is missing or is not
    JSON. *)
Lemma script_not_found (w : World) :
  response_file w = None ->
  script fromisoformat json_load w =
  (SystemExit 1, with_stdout (stdout w ++ [ErrorNotFound]) w).
Proof.
  intros H. unfold script, bind. rewrite (main_not_found _ _ w H).
  reflexivity.
Qed.

Lemma script_invalid_json (w : World) (text : str) :
  response_file w = Some text -> json_load text = None ->
  script fromisoformat json_load w =
  (SystemExit 1, with_stdout (stdout w ++ [ErrorInvalidJSON]) w).
Proof.
  intros H1 H2. unfold script, bind.
  rewrite (main_invalid_json _ _ w text H1 H2). reflexivity.
Qed.


End ScriptFacts.

(** * The claims *)

(** C5, as the code has it.  Timestamp formatting.  An absent or empty
    timestamp is rendered as N/A.  A non-empty timestamp that
    [datetime.fromisoformat] accepts (once every Z is replaced by +00:00) is
    rendered by [strftime] as Y-MM-DD HH:MM:SS UTC, where Y is the year
    without padding: from the year 1000 on this is the fixed pattern
    YYYY-MM-DD HH:MM:SS UTC, before the year 1000 the year has fewer than
    four digits and it is not.  A non-empty timestamp that the parser
    rejects is passed through unchanged. *)
Theorem C5_format_timestamp
    (fromisoformat : str -> option datetime)
    (fromisoformat_valid :
       forall s dt, fromisoformat s = Some dt -> valid dt) :
  format_timestamp fromisoformat None = py "N/A" /\
  format_timestamp fromisoformat (Some []) = py "N/A" /\
  forall s : str, s <> [] ->
    (forall dt, fromisoformat (replace 90 (py "+00:00") s) = Some dt ->
       format_timestamp fromisoformat (Some s) = strftime dt /\
       printed_pattern (format_timestamp fromisoformat (Some s)) /\
       ((1000 <= year dt)%nat ->
        fixed_pattern (format_timestamp fromisoformat (Some s))) /\
       ((year dt < 1000)%nat ->
        ~ fixed_pattern (format_timestamp fromisoformat (Some s)))) /\
    (fromisoformat (replace 90 (py "+00:00") s) = None ->
       format_timestamp fromisoformat (Some s) = s).
Proof.
  split; [reflexivity|]. split; [reflexivity|].
  intros s Hs. destruct s as [|c s]; [contradiction|].
  unfold format_timestamp. simpl truthy_str. simpl negb. cbv iota.
  simpl default. split.
  - intros dt H. rewrite H. pose proof (fromisoformat_valid _ _ H) as V.
    split; [reflexivity|]. split; [apply strftime_printed_pattern, V|].
    split; [apply strftime_fixed_pattern, V|].
    apply strftime_not_fixed_pattern, V.
  - intros H. rewrite H. reflexivity.
Qed.

Lemma C5_format_timestamp_witness :
  format_timestamp Examples.iso_seconds (Some (py "2024-01-02T03:04:05Z"))
    = py "2024-01-02 03:04:05 UTC" /\
  fixed_pattern
    (format_timestamp Examples.iso_seconds (Some (py "2024-01-02T03:04:05Z"))) /\
  format_timestamp Examples.iso_seconds (Some (py "last Friday"))
    = py "last Friday".
Proof.
  destruct (C5_format_timestamp Examples.iso_seconds iso_seconds_valid)
    as (_ & _ & H).
  split; [|split].
  - destruct (H (py "2024-01-02T03:04:05Z") ltac:(discriminate)) as [H1 _].
    destruct (H1 (mkDatetime 2024 1 2 3 4 5) ltac:(vm_compute; reflexivity))
      as [E _].
    rewrite E. vm_compute. reflexivity.
  - destruct (H (py "2024-01-02T03:04:05Z") ltac:(discriminate)) as [H1 _].
    destruct (H1 (mkDatetime 2024 1 2 3 4 5) ltac:(vm_compute; reflexivity))
      as (_ & _ & F & _).
    apply F. apply Nat.leb_le. vm_compute. reflexivity.
  - destruct (H (py "last Friday") ltac:(discriminate)) as [_ H2].
    apply H2. vm_compute. reflexivity.
Defined.

(** C5 as stated fails: the timestamp 0999-12-31T23:59:59Z is accepted and
    rendered with a year of three digits, which is not the fixed pattern. *)
Lemma C5_counterexample :
  format_timestamp Examples.iso_seconds (Some (py "0999-12-31T23:59:59Z"))
    = py "999-12-31 23:59:59 UTC" /\
  ~ fixed_pattern
      (format_timestamp Examples.iso_seconds (Some (py "0999-12-31T23:59:59Z"))).
Proof.
  assert (E : format_timestamp Examples.iso_seconds
                (Some (py "0999-12-31T23:59:59Z"))
              = py "999-12-31 23:59:59 UTC") by (vm_compute; reflexivity).
  split; [exact E|]. rewrite E. intros F.
  apply fixed_pattern_length in F. vm_compute in F. discriminate.
Qed.

(** C6.  The step count of a record is the number of non-blank lines of its
    customSteps split at newlines (lines with a character that is not white
    space); it is 0 when customSteps is absent or empty; it is the number
    shown on the Steps line of the record's index entry; and the text
    step1, step2, an empty line, step3 counts 3. *)
Theorem C6_step_count
    (fromisoformat : str -> option datetime) (tc : TestCase) (i : nat) :
  step_count tc = nonblank_lines (default [] (customSteps tc)) /\
  (customSteps tc = None \/ customSteps tc = Some [] -> step_count tc = 0%nat) /\
  In (py "- **Steps**: " ++ of_nat (nonblank_lines (default [] (customSteps tc))))
     (index_entry fromisoformat i tc) /\
  (customSteps tc
     = Some (py "step1" ++ [10%N] ++ py "step2" ++ [10%N; 10%N] ++ py "step3") ->
   step_count tc = 3%nat).
Proof.
  assert (E : step_count tc = nonblank_lines (default [] (customSteps tc))).
  { unfold step_count, nonblank_lines.
    destruct (default [] (customSteps tc)) as [|c s] eqn:D; [reflexivity|].
    cbv beta iota delta [truthy]. f_equal.
    apply List.filter_ext. intros x. apply truthy_strip. }
  split; [exact E|]. split; [|split].
  - intros [H|H]; rewrite E, H; reflexivity.
  - unfold index_entry. rewrite <- E. simpl. tauto.
  - intros H. rewrite E, H. vm_compute. reflexivity.
Qed.

Lemma C6_step_count_witness :
  step_count Examples.tcA = 3%nat /\ step_count Examples.blank = 0%nat.
Proof.
  split.
  - apply (C6_step_count Examples.iso_seconds Examples.tcA 1). reflexivity.
  - apply (C6_step_count Examples.iso_seconds Examples.blank 1). left.
    reflexivity.
Defined.

(** C3.  The index lists the records in descending order of the raw
    createdAt string.  The entries of INDEX.md are those of the sorted
    records, in their order, numbered from 1; the sorted records are the
    input records; a record whose createdAt is larger in the lexicographic
    order of strings comes at an earlier position; and every record with an
    empty or missing createdAt comes after every record with a non-empty
    one. *)
Theorem C3_index_order
    (fromisoformat : str -> option datetime) (now : datetime)
    (test_cases : list TestCase) (metadata : Data) :
  Permutation (sorted_cases test_cases) test_cases /\
  create_index fromisoformat now test_cases metadata =
    join [10%N]
      (index_header now test_cases metadata ++
       concat (map (fun e => index_entry fromisoformat (fst e) (snd e))
                   (enumerate 1 (sorted_cases test_cases)))) /\
  (forall i a, sorted_cases test_cases !! i = Some a ->
     enumerate 1 (sorted_cases test_cases) !! i = Some (S i, a)) /\
  (forall i j a b,
     sorted_cases test_cases !! i = Some a ->
     sorted_cases test_cases !! j = Some b ->
     ltb (default [] (createdAt b)) (default [] (createdAt a)) = true ->
     (i < j)%nat) /\
  (forall i j a b,
     sorted_cases test_cases !! i = Some a ->
     sorted_cases test_cases !! j = Some b ->
     truthy_str (createdAt a) = true -> truthy_str (createdAt b) = false ->
     (i < j)%nat).
Proof.
  split; [apply sorted_reverse_perm|]. split; [|split; [|split]].
  - unfold create_index, create_index_lines. do 3 f_equal.
    apply map_ext. intros [i tc]. reflexivity.
  - intros i a H. apply (enumerate_lookup _ 1 i a H).
  - intros i j a b Hi Hj Hlt.
    exact (sorted_reverse_order created_key test_cases i j a b Hi Hj Hlt).
  - intros i j a b Hi Hj Ha Hb.
    apply (sorted_reverse_order created_key test_cases i j a b Hi Hj).
    unfold created_key.
    destruct (createdAt b) as [[|? ?]|]; try discriminate;
      destruct (createdAt a) as [[|? ?]|]; try discriminate; reflexivity.
Qed.

Lemma C3_index_order_witness :
  sorted_cases [Examples.blank; Examples.tcA; Examples.tcB]
    = [Examples.tcB; Examples.tcA; Examples.blank] /\
  (0 < 1)%nat /\ (1 < 2)%nat.
Proof.
  destruct (C3_index_order Examples.iso_seconds Examples.noon
              [Examples.blank; Examples.tcA; Examples.tcB] empty_dict)
    as (_ & _ & _ & H1 & H2).
  split; [vm_compute; reflexivity|]. split.
  - apply (H1 0%nat 1%nat Examples.tcB Examples.tcA);
      vm_compute; reflexivity.
  - apply (H2 1%nat 2%nat Examples.tcA Examples.blank);
      vm_compute; reflexivity.
Defined.

(** C4, as the code has it.  In the Markdown of a record an absent
    description is rendered as Untitled Test Case and an absent createdAt as
    N/A; inside a createdBy or modifiedBy object that is present and not
    empty, an absent name or email is rendered as N/A (modifiedBy is looked
    at only when modifiedAt is non-empty); an absent disabled flag is
    rendered as Enabled.  An absent createdBy, modifiedAt or labels gives no
    line at all: the record without createdBy has the lines of the record
    with one, less the creator line after the fifth line, whatever its other
    fields are, and likewise for the modification lines and the label line;
    an absent customSteps ends the document with the line for no steps.
    When createdBy, modifiedAt, labels and customSteps are all absent the
    document has the nine lines listed. *)
Theorem C4_placeholders_amended
    (fromisoformat : str -> option datetime) (tc : TestCase) :
  let lines := format_test_case_lines fromisoformat tc in
  format_test_case fromisoformat tc = join [10%N] lines /\
  (description tc = None ->
     lines !! 0%nat = Some (py "# Untitled Test Case" ++ [10%N])) /\
  (disabled tc = None ->
     lines !! 3%nat = Some (py "- **Status**: " ++ icon_enabled ++ py " Enabled")) /\
  (createdAt tc = None -> lines !! 4%nat = Some (py "- **Created**: N/A")) /\
  (forall d, createdBy tc = Some d -> d <> ∅ ->
     lines !! 5%nat =
       Some (py "- **Created By**: " ++ default (py "N/A") (d !! py "name")
             ++ py " (" ++ default (py "N/A") (d !! py "email") ++ py ")")) /\
  (forall d, truthy_str (modifiedAt tc) = true ->
     modifiedBy tc = Some d -> d <> ∅ ->
     In (py "- **Modified By**: " ++ default (py "N/A") (d !! py "name")
         ++ py " (" ++ default (py "N/A") (d !! py "email") ++ py ")") lines) /\
  (createdBy tc = None -> modifiedAt tc = None -> labels tc = None ->
   customSteps tc = None ->
     lines =
       [ py "# " ++ default (py "Untitled Test Case") (description tc) ++ [10%N];
         py "## Metadata" ++ [10%N];
         py "- **UUID**: `" ++ default (py "N/A") (uuid tc) ++ py "`";
         py "- **Status**: " ++
           (if truthy_flag (disabled tc) then icon_disabled ++ py " Disabled"
            else icon_enabled ++ py " Enabled");
         py "- **Created**: " ++ format_timestamp fromisoformat (createdAt tc);
         [];
         py "## Test Steps" ++ [10%N];
         py "*No steps defined*";
         [] ]) /\
  (createdBy tc = None -> forall d, d <> ∅ ->
     format_test_case_lines fromisoformat (with_createdBy (Some d) tc) =
       take 5 lines
       ++ [py "- **Created By**: " ++ name_and_email d]
       ++ drop 5 lines) /\
  (modifiedAt tc = None -> forall c s,
     let n := (5 + if truthy_dict (default ∅ (createdBy tc)) then 1 else 0)%nat in
     format_test_case_lines fromisoformat (with_modifiedAt (Some (c :: s)) tc) =
       take n lines
       ++ [py "- **Modified**: "
           ++ format_timestamp fromisoformat (Some (c :: s))]
       ++ (if truthy_dict (default ∅ (modifiedBy tc))
           then [py "- **Modified By**: "
                 ++ name_and_email (default ∅ (modifiedBy tc))]
           else [])
       ++ drop n lines) /\
  (labels tc = None -> forall x l,
     let n := (5 + (if truthy_dict (default ∅ (createdBy tc)) then 1 else 0)
                 + (if truthy_str (modifiedAt tc)
                    then 1 + (if truthy_dict (default ∅ (modifiedBy tc))
                              then 1 else 0)
                    else 0))%nat in
     format_test_case_lines fromisoformat (with_labels (Some (x :: l)) tc) =
       take n lines
       ++ [py "- **Labels**: " ++ join (py ", ") (x :: l)]
       ++ drop n lines) /\
  (customSteps tc = None ->
     exists pre,
       lines = pre ++ [ []; py "## Test Steps" ++ [10%N];
                        py "*No steps defined*"; [] ]).
Proof.
  cbv zeta. split; [reflexivity|].
  split; [intros H; unfold format_test_case_lines; rewrite H; reflexivity|].
  split; [intros H; unfold format_test_case_lines; rewrite H; reflexivity|].
  split; [intros H; unfold format_test_case_lines; rewrite H; reflexivity|].
  split; [|split; [|split; [|split; [|split; [|split]]]]].
  - intros d H Hd. unfold format_test_case_lines. rewrite H. simpl default.
    unfold truthy_dict. rewrite bool_decide_eq_true_2 by exact Hd.
    reflexivity.
  - intros d Hm H Hd. unfold format_test_case_lines. rewrite Hm, H.
    simpl default. unfold truthy_dict at 2.
    rewrite bool_decide_eq_true_2 by exact Hd.
    apply in_or_app. right. apply in_or_app. right.
    apply in_or_app. left. right. left. reflexivity.
  - intros H1 H2 H3 H4. unfold format_test_case_lines.
    rewrite H1, H2, H3, H4. reflexivity.
  - intros H d Hd. unfold format_test_case_lines, with_createdBy.
    cbn [createdBy uuid description disabled createdAt modifiedAt modifiedBy
         labels customSteps].
    rewrite H.
    change (default ∅ (Some d)) with d.
    change (default ∅ (@None (gmap str str))) with (∅ : gmap str str).
    assert (T : truthy_dict d = true)
      by (unfold truthy_dict; apply bool_decide_eq_true_2, Hd).
    rewrite T. change (truthy_dict ∅) with false. reflexivity.
  - intros H c s. unfold format_test_case_lines, with_modifiedAt.
    cbn [createdBy uuid description disabled createdAt modifiedAt modifiedBy
         labels customSteps].
    rewrite H. cbn [truthy_str truthy].
    destruct (truthy_dict (default ∅ (createdBy tc))); reflexivity.
  - intros H x l. unfold format_test_case_lines, with_labels.
    cbn [createdBy uuid description disabled createdAt modifiedAt modifiedBy
         labels customSteps].
    rewrite H.
    change (default [] (Some (x :: l))) with (x :: l).
    change (default [] (@None (list str))) with (@nil str).
    cbn [truthy_list].
    destruct (truthy_dict (default ∅ (createdBy tc)));
      destruct (truthy_str (modifiedAt tc));
      try destruct (truthy_dict (default ∅ (modifiedBy tc))); reflexivity.
  - intros H. unfold format_test_case_lines. rewrite H.
    change (default [] (@None str)) with (@nil N). cbn [truthy].
    match goal with
    | |- exists pre, ?l5 ++ ?cb ++ ?md ++ ?lab ++ _ = _ =>
        exists (l5 ++ cb ++ md ++ lab)
    end.
    rewrite <- !app_assoc. reflexivity.
Qed.

Lemma C4_placeholders_amended_witness :
  format_test_case_lines Examples.iso_seconds Examples.bare =
    [ py "# Untitled Test Case" ++ [10%N];
      py "## Metadata" ++ [10%N];
      py "- **UUID**: `c`";
      py "- **Status**: " ++ icon_enabled ++ py " Enabled";
      py "- **Created**: N/A";
      [];
      py "## Test Steps" ++ [10%N];
      py "*No steps defined*";
      [] ] /\
  format_test_case_lines Examples.iso_seconds Examples.signed !! 5%nat =
    Some (py "- **Created By**: N/A (N/A)") /\
  In (py "- **Modified By**: Bo (N/A)")
     (format_test_case_lines Examples.iso_seconds Examples.signed).
Proof.
  destruct (C4_placeholders_amended Examples.iso_seconds Examples.bare)
    as (_ & _ & _ & _ & _ & _ & H & _).
  destruct (C4_placeholders_amended Examples.iso_seconds Examples.signed)
    as (_ & _ & _ & _ & Hc & Hm & _).
  split; [|split].
  - rewrite H by reflexivity. vm_compute. reflexivity.
  - rewrite (Hc {[ py "id" := py "7" ]}); [vm_compute; reflexivity|reflexivity|].
    apply map_non_empty_singleton.
  - specialize (Hm {[ py "name" := py "Bo" ]}).
    match type of Hm with
    | _ -> _ -> _ -> In ?x _ =>
        replace (py "- **Modified By**: Bo (N/A)") with x
          by (vm_compute; reflexivity)
    end.
    apply Hm; [reflexivity|reflexivity|].
    apply map_non_empty_singleton.
Defined.

(** C4 as stated fails: a record without createdBy gets no creator line;
    the words Created By do not occur in its document. *)
Lemma C4_counterexample :
  createdBy Examples.bare = None /\
  ~ In (py "- **Created By**: N/A (N/A)")
       (format_test_case_lines Examples.iso_seconds Examples.bare) /\
  ~ occurs_in (py "Created By")
       (format_test_case Examples.iso_seconds Examples.bare).
Proof.
  split; [reflexivity|]. split.
  - intros H. apply (occurs_in_join [10%N]) in H.
    assert (O : occurs_in (py "Created By")
                  (py "- **Created By**: N/A (N/A)"))
      by (apply occurs_inb_sound; vm_compute; reflexivity).
    pose proof (occurs_in_trans _ _ _ O H) as X.
    apply occurs_inb_complete in X. vm_compute in X. discriminate.
  - intros H. apply occurs_inb_complete in H. vm_compute in H. discriminate.
Qed.

(** C7.  When the input file is missing, or its text is not JSON, the
    script prints one diagnostic and the process ends with exit status 1;
    the output directory (and the input) are as they were: nothing is
    created, deleted or written. *)
Theorem C7_bad_input_exits_1
    (fromisoformat : str -> option datetime)
    (json_load : str -> option Response) (w : World) :
  (response_file w = None \/
   exists text, response_file w = Some text /\ json_load text = None) ->
  let (o, w') := script fromisoformat json_load w in
  exit_status o = 1%Z /\
  stdout w' = stdout w ++ [match response_file w with
                           | None => ErrorNotFound
                           | Some _ => ErrorInvalidJSON
                           end] /\
  output_dir w' = output_dir w /\
  response_file w' = response_file w.
Proof.
  intros [H|(text & H1 & H2)].
  - rewrite (script_not_found _ _ w H), H. simpl. auto.
  - rewrite (script_invalid_json _ _ w text H1 H2), H1. simpl. auto.
Qed.

Lemma C7_bad_input_exits_1_witness :
  (let (o, w') := script Examples.iso_seconds Examples.loader
                    (Examples.fresh (py "{not json")) in
   exit_status o = 1%Z /\ stdout w' = [ErrorInvalidJSON] /\
   output_dir w' = None) /\
  (let (o, w') := script Examples.iso_seconds Examples.loader
                    (with_response_file None (Examples.fresh [])) in
   exit_status o = 1%Z /\ stdout w' = [ErrorNotFound] /\
   output_dir w' = None).
Proof.
  split.
  - pose proof (C7_bad_input_exits_1 Examples.iso_seconds Examples.loader
                  (Examples.fresh (py "{not json"))) as H.
    destruct (script _ _ _) as [o w'].
    destruct H as (H1 & H2 & H3 & _).
    + right. exists (py "{not json"). split; vm_compute; reflexivity.
    + repeat split; assumption.
  - pose proof (C7_bad_input_exits_1 Examples.iso_seconds Examples.loader
                  (with_response_file None (Examples.fresh []))) as H.
    destruct (script _ _ _) as [o w'].
    destruct H as (H1 & H2 & H3 & _).
    + left. reflexivity.
    + repeat split; assumption.
Defined.




(** ** Lemmas shared by the claims on the written files *)

Section WrittenFacts.

Variable fromisoformat : str -> option datetime.








End WrittenFacts.













(** * Properties beyond the claims *)

(** ** More on strings *)

Lemma join_cons (sep x : str) (l : list str) :
  l <> [] -> join sep (x :: l) = x ++ sep ++ join sep l.
Proof. destruct l; [contradiction|reflexivity]. Qed.

Lemma join_app (sep : str) (l1 l2 : list str) :
  l1 <> [] -> l2 <> [] ->
  join sep (l1 ++ l2) = join sep l1 ++ sep ++ join sep l2.
Proof.
  intros H1 H2. induction l1 as [|x l1 IH]; [contradiction|].
  destruct l1 as [|y l1].
  - simpl app. rewrite join_cons by exact H2. reflexivity.
  - change ((x :: y :: l1) ++ l2) with (x :: ((y :: l1) ++ l2)).
    rewrite join_cons by discriminate.
    rewrite IH by discriminate.
    rewrite (join_cons sep x (y :: l1)) by discriminate.
    rewrite <- !app_assoc. reflexivity.
Qed.

Lemma split_not_nil (sep : N) (s : str) : split sep s <> [].
Proof.
  destruct s as [|c s]; simpl; [discriminate|].
  destruct (N.eqb c sep); [discriminate|].
  destruct (split sep s); discriminate.
Qed.

(** Splitting a text that has a separator in the middle. *)
Lemma split_app (sep : N) (a b : str) :
  split sep (a ++ sep :: b) = split sep a ++ split sep b.
Proof.
  induction a as [|c a IH]; simpl.
  - rewrite N.eqb_refl. reflexivity.
  - destruct (N.eqb c sep); [rewrite IH; reflexivity|].
    rewrite IH. pose proof (split_not_nil sep a) as H.
    destruct (split sep a); [contradiction|reflexivity].
Qed.

(** After [replace] the replaced character is gone, when the new text does
    not bring it back. *)
Lemma replace_removes (old : N) (new s : str) :
  Forall (fun c => c <> old) new ->
  Forall (fun c => c <> old) (replace old new s).
Proof.
  intros Hnew. induction s as [|c s IH]; simpl; [constructor|].
  destruct (N.eqb_spec c old) as [E|E].
  - apply Forall_app. split; assumption.
  - constructor; assumption.
Qed.

Lemma step_count_nonblank_lines (tc : TestCase) :
  step_count tc = nonblank_lines (default [] (customSteps tc)).
Proof.
  unfold step_count, nonblank_lines.
  destruct (default [] (customSteps tc)) as [|c s]; [reflexivity|].
  cbv beta iota delta [truthy]. f_equal.
  apply List.filter_ext. intros x. apply truthy_strip.
Qed.

Lemma nonblank_lines_app (a b : str) :
  nonblank_lines (a ++ 10%N :: b) = (nonblank_lines a + nonblank_lines b)%nat.
Proof.
  unfold nonblank_lines. rewrite split_app, List.filter_app, length_app.
  reflexivity.
Qed.

(** A text of white space only has no step, however many lines it has. *)
Lemma nonblank_lines_blank (b : str) :
  nonblank b = false -> nonblank_lines b = 0%nat.
Proof.
  unfold nonblank_lines. intros H.
  assert (G : forall l, Forall (fun x => nonblank x = false) l ->
                        List.filter nonblank l = []).
  { induction 1 as [|x l Hx _ IH]; simpl; [reflexivity|].
    rewrite Hx. exact IH. }
  rewrite G; [reflexivity|]. clear G.
  induction b as [|c b IH]; simpl.
  - constructor; [reflexivity|constructor].
  - unfold nonblank in H. simpl in H. apply orb_false_iff in H.
    destruct H as [Hc Hb]. specialize (IH Hb).
    destruct (N.eqb c 10); [constructor; [reflexivity|exact IH]|].
    destruct (split 10 b) as [|l ls]; [constructor; [|constructor]|].
    + unfold nonblank. simpl. rewrite Hc. reflexivity.
    + inversion IH as [|? ? Hl Hls]; subst. constructor; [|exact Hls].
      unfold nonblank in *. simpl. rewrite Hc. exact Hl.
Qed.

(** X11.  The step count adds up over lines: for a text made of a first part,
    a newline and a second part, the count is the sum of the counts of the
    parts; so a second part of white space only, and a newline at the end
    of the text, add nothing. *)
Theorem X11_step_count_additive (tc : TestCase) (a b : str) :
  step_count (with_steps (Some (a ++ 10%N :: b)) tc) =
    (step_count (with_steps (Some a) tc) + step_count (with_steps (Some b) tc))%nat /\
  (nonblank b = false ->
   step_count (with_steps (Some (a ++ 10%N :: b)) tc) =
     step_count (with_steps (Some a) tc)) /\
  step_count (with_steps (Some (a ++ [10%N])) tc) =
    step_count (with_steps (Some a) tc).
Proof.
  rewrite !step_count_nonblank_lines. simpl.
  rewrite !nonblank_lines_app. split; [reflexivity|]. split.
  - intros H. rewrite (nonblank_lines_blank b H). lia.
  - change (nonblank_lines []) with 0%nat. lia.
Qed.

Lemma X11_step_count_additive_witness :
  step_count (with_steps (Some (py "open" ++ 10%N :: py "  " ++ [9%N; 13%N]))
                Examples.tcB) = 1%nat.
Proof.
  destruct (X11_step_count_additive Examples.tcB (py "open")
              (py "  " ++ [9%N; 13%N])) as (_ & H & _).
  rewrite H by (vm_compute; reflexivity). vm_compute. reflexivity.
Defined.

(** ** More on the order of the index *)

Lemma with_key_insert_desc (k : str) (x : TestCase) (l : list TestCase) :
  with_key k (insert_desc created_key x l) = with_key k (x :: l).
Proof.
  unfold with_key. induction l as [|y l IH]; [reflexivity|].
  simpl insert_desc. destruct (ltb (created_key x) (created_key y)) eqn:E;
    [|reflexivity].
  simpl List.filter in *. rewrite IH.
  destruct (bool_decide (created_key x = k)) eqn:Ex; [|reflexivity].
  destruct (bool_decide (created_key y = k)) eqn:Ey; [|reflexivity].
  apply bool_decide_eq_true_1 in Ex. apply bool_decide_eq_true_1 in Ey.
  rewrite Ex, Ey, ltb_irrefl in E. discriminate.
Qed.

Lemma sorted_reverse_fixed {A} (key : A -> str) (l : list A) :
  StronglySorted (not_below key) l -> sorted_reverse key l = l.
Proof.
  induction 1 as [|x l Hs IH Hx]; [reflexivity|].
  simpl. rewrite IH. destruct l as [|y l]; [reflexivity|].
  simpl. inversion Hx as [|? ? Hy _]; subst.
  unfold not_below in Hy. rewrite Hy. reflexivity.
Qed.

Lemma enumerate_fst {A} (l : list A) (start : nat) :
  map fst (enumerate start l) = seq start (length l).
Proof.
  revert start. induction l as [|x l IH]; intros start; [reflexivity|].
  simpl. rewrite IH. reflexivity.
Qed.

Lemma enumerate_snd {A} (l : list A) (start : nat) :
  map snd (enumerate start l) = l.
Proof.
  revert start. induction l as [|x l IH]; intros start; [reflexivity|].
  simpl. rewrite IH. reflexivity.
Qed.

(** X2.  The sort of the index is stable: the records with one and the same
    createdAt (a missing one counts as the empty string) come in the index
    in the order they have in the input.  So when every record has the same
    createdAt, or none has one, the index keeps the order of the input. *)
Theorem X2_index_order_stable (test_cases : list TestCase) (k : str) :
  with_key k (sorted_cases test_cases) = with_key k test_cases /\
  (Forall (fun tc => created_key tc = k) test_cases ->
   sorted_cases test_cases = test_cases).
Proof.
  assert (S : with_key k (sorted_cases test_cases) = with_key k test_cases).
  { unfold sorted_cases. induction test_cases as [|x l IH]; [reflexivity|].
    simpl sorted_reverse. rewrite with_key_insert_desc.
    unfold with_key in *. simpl. rewrite IH. reflexivity. }
  split; [exact S|]. intros H.
  assert (G : forall l, Forall (fun tc => created_key tc = k) l ->
                        with_key k l = l).
  { induction 1 as [|x l Hx _ IH]; [reflexivity|].
    unfold with_key in *. simpl.
    rewrite bool_decide_eq_true_2 by exact Hx. rewrite IH. reflexivity. }
  rewrite <- (G _ H) at 2. rewrite <- S. symmetry. apply G.
  rewrite Forall_forall in H |- *. intros x Hx. apply H.
  rewrite <- (sorted_reverse_perm created_key test_cases). exact Hx.
Qed.

Lemma X2_index_order_stable_witness :
  sorted_cases [Examples.orphan; Examples.blank; Examples.bare]
    = [Examples.orphan; Examples.blank; Examples.bare].
Proof.
  apply (X2_index_order_stable
           [Examples.orphan; Examples.blank; Examples.bare] []).
  repeat constructor.
Defined.

(** X3.  Sorting again changes nothing: the sorted records are a fixed point
    of the sort, so an input that already comes newest first is listed as it
    is. *)
Theorem X3_sorted_cases_idempotent (test_cases : list TestCase) :
  sorted_cases (sorted_cases test_cases) = sorted_cases test_cases /\
  (StronglySorted (not_below created_key) test_cases ->
   sorted_cases test_cases = test_cases).
Proof.
  split.
  - apply sorted_reverse_fixed, sorted_reverse_sorted.
  - apply sorted_reverse_fixed.
Qed.

Lemma X3_sorted_cases_idempotent_witness :
  sorted_cases [Examples.tcB; Examples.tcA; Examples.blank]
    = [Examples.tcB; Examples.tcA; Examples.blank].
Proof.
  apply (X3_sorted_cases_idempotent
           [Examples.tcB; Examples.tcA; Examples.blank]).
  repeat constructor.
Defined.

Lemma index_entries_length (fromisoformat : str -> option datetime)
    (l : list TestCase) (start : nat) :
  length (concat (map (fun '(i, tc) => index_entry fromisoformat i tc)
                      (enumerate start l)))
  = (6 * length l)%nat.
Proof.
  revert start. induction l as [|x l IH]; intros start; [reflexivity|].
  simpl enumerate. simpl map. simpl concat. unfold index_entry at 1.
  simpl length. rewrite IH. lia.
Qed.

(** X4.  The index has one entry for every record of the input, also for a
    record without uuid and for a record whose uuid another one shares: the
    entries are numbered 1, 2, ..., n, where n is the number of records, and
    the index has four header items and six items for each record. *)
Theorem X4_index_ranks
    (fromisoformat : str -> option datetime) (now : datetime)
    (test_cases : list TestCase) (metadata : Data) :
  map fst (enumerate 1 (sorted_cases test_cases))
    = seq 1 (length test_cases) /\
  Permutation (map snd (enumerate 1 (sorted_cases test_cases))) test_cases /\
  length (create_index_lines fromisoformat now test_cases metadata)
    = (4 + 6 * length test_cases)%nat.
Proof.
  assert (L : length (sorted_cases test_cases) = length test_cases)
    by (apply Permutation_length, sorted_reverse_perm).
  split; [rewrite enumerate_fst, L; reflexivity|]. split.
  - rewrite enumerate_snd. apply sorted_reverse_perm.
  - unfold create_index_lines.
    rewrite length_app, index_entries_length, L. reflexivity.
Qed.

(** ** More on the formatting functions *)

Lemma plus_offset_has_no_Z : Forall (fun c => c <> 90%N) (py "+00:00").
Proof. vm_compute. repeat constructor; discriminate. Qed.

Lemma zulu_agrees (s : str) :
  Forall (fun c => c <> 90%N) s ->
  Examples.iso_seconds s = MoreExamples.zulu s.
Proof.
  intros H. unfold MoreExamples.zulu.
  rewrite bool_decide_eq_false_2; [reflexivity|].
  intros Hex. apply Exists_exists in Hex. destruct Hex as (c & Hin & ->).
  rewrite Forall_forall in H. exact (H _ Hin eq_refl).
Qed.

(** X9.  [format_timestamp] hands [fromisoformat] a text without any Z, so
    its result does not depend on what the parser does with a Z: two parsers
    that agree on the texts without Z give the same formatted timestamps. *)
Theorem X9_format_timestamp_Z_independent
    (f g : str -> option datetime) :
  (forall s, Forall (fun c => c <> 90%N) s -> f s = g s) ->
  forall timestamp_str,
    format_timestamp f timestamp_str = format_timestamp g timestamp_str.
Proof.
  intros H t. unfold format_timestamp.
  destruct (negb (truthy_str t)); [reflexivity|].
  rewrite (H _ (replace_removes 90 (py "+00:00") (default [] t)
                  plus_offset_has_no_Z)).
  reflexivity.
Qed.

Lemma X9_format_timestamp_Z_independent_witness :
  format_timestamp MoreExamples.zulu (Some (py "2024-01-02T03:04:05Z"))
    = py "2024-01-02 03:04:05 UTC".
Proof.
  rewrite <- (X9_format_timestamp_Z_independent Examples.iso_seconds
                MoreExamples.zulu zulu_agrees).
  vm_compute. reflexivity.
Defined.

Lemma strftime_truthy (dt : datetime) : truthy (strftime dt) = true.
Proof.
  unfold strftime. destruct (of_nat (year dt)); reflexivity.
Qed.

(** X10.  [format_timestamp] never returns the empty string, whatever the
    parser does: the Created and Modified lines always show a value. *)
Theorem X10_format_timestamp_not_empty
    (fromisoformat : str -> option datetime) (timestamp_str : option str) :
  truthy (format_timestamp fromisoformat timestamp_str) = true.
Proof.
  unfold format_timestamp.
  destruct timestamp_str as [[|c s]|]; simpl; try reflexivity.
  destruct (fromisoformat _); [apply strftime_truthy|reflexivity].
Qed.

Lemma created_key_drop_empty (tc : TestCase) :
  created_key (drop_empty tc) = created_key tc.
Proof.
  unfold created_key, drop_empty. simpl.
  destruct (createdAt tc) as [[|c s]|]; reflexivity.
Qed.

Lemma format_timestamp_drop_empty (fromisoformat : str -> option datetime)
    (t : option str) :
  format_timestamp fromisoformat (if truthy_str t then t else None)
  = format_timestamp fromisoformat t.
Proof. destruct t as [[|c s]|]; reflexivity. Qed.

Lemma format_test_case_lines_drop_empty
    (fromisoformat : str -> option datetime) (tc : TestCase) :
  format_test_case_lines fromisoformat (drop_empty tc)
  = format_test_case_lines fromisoformat tc.
Proof.
  unfold format_test_case_lines, drop_empty. simpl.
  rewrite !format_timestamp_drop_empty.
  assert (D : forall o : option (gmap str str),
            truthy_dict (default ∅ match o with
                                   | Some d => if truthy_dict d then Some d
                                               else None
                                   | None => None
                                   end) = truthy_dict (default ∅ o) /\
            (truthy_dict (default ∅ o) = true ->
             default ∅ match o with
                       | Some d => if truthy_dict d then Some d else None
                       | None => None
                       end = default ∅ o)).
  { intros [d|]; [|split; reflexivity]. simpl.
    destruct (truthy_dict d) eqn:E; simpl; [rewrite E; split; reflexivity|].
    split; [reflexivity|discriminate]. }
  destruct (D (createdBy tc)) as [C1 C2]. destruct (D (modifiedBy tc)) as [M1 M2].
  rewrite C1, M1.
  destruct (truthy_dict (default ∅ (createdBy tc))); [rewrite C2 by reflexivity|];
    (destruct (truthy_dict (default ∅ (modifiedBy tc)));
       [rewrite M2 by reflexivity|]);
    destruct (disabled tc) as [[|]|]; destruct (modifiedAt tc) as [[|c s]|];
    destruct (labels tc) as [[|x l]|];
    destruct (customSteps tc) as [[|c' s']|]; reflexivity.
Qed.

Lemma index_entry_drop_empty (fromisoformat : str -> option datetime)
    (i : nat) (tc : TestCase) :
  index_entry fromisoformat i (drop_empty tc) = index_entry fromisoformat i tc.
Proof.
  unfold index_entry, step_count, drop_empty. simpl.
  rewrite format_timestamp_drop_empty.
  destruct (disabled tc) as [[|]|]; destruct (customSteps tc) as [[|c s]|];
    reflexivity.
Qed.

Lemma insert_desc_drop_empty (x : TestCase) (l : list TestCase) :
  insert_desc created_key (drop_empty x) (map drop_empty l)
  = map drop_empty (insert_desc created_key x l).
Proof.
  induction l as [|y l IH]; [reflexivity|]. simpl.
  rewrite !created_key_drop_empty.
  destruct (ltb (created_key x) (created_key y)); [|reflexivity].
  simpl. rewrite IH. reflexivity.
Qed.

Lemma sorted_cases_drop_empty (l : list TestCase) :
  sorted_cases (map drop_empty l) = map drop_empty (sorted_cases l).
Proof.
  unfold sorted_cases. induction l as [|x l IH]; [reflexivity|].
  simpl. rewrite IH. apply insert_desc_drop_empty.
Qed.

Lemma index_entries_drop_empty (fromisoformat : str -> option datetime)
    (l : list TestCase) (start : nat) :
  concat (map (fun '(i, tc) => index_entry fromisoformat i tc)
              (enumerate start (map drop_empty l)))
  = concat (map (fun '(i, tc) => index_entry fromisoformat i tc)
                (enumerate start l)).
Proof.
  revert start. induction l as [|x l IH]; intros start; [reflexivity|].
  cbn [enumerate map]. rewrite !concat_cons.
  rewrite index_entry_drop_empty, IH. reflexivity.
Qed.

(** X8.  Empty values are rendered as absent ones.  A false disabled flag,
    an empty createdAt, modifiedAt or customSteps string, an empty createdBy
    or modifiedBy object and an empty list of labels give the Markdown of a
    record, its index entry and the whole index that the record without
    these keys gives.  The description is different: an empty description
    is printed as an empty title, not as the placeholder. *)
Theorem X8_empty_values_as_absent
    (fromisoformat : str -> option datetime) (now : datetime)
    (test_cases : list TestCase) (metadata : Data) (tc : TestCase) (i : nat) :
  format_test_case fromisoformat (drop_empty tc)
    = format_test_case fromisoformat tc /\
  index_entry fromisoformat i (drop_empty tc)
    = index_entry fromisoformat i tc /\
  create_index fromisoformat now (map drop_empty test_cases) metadata
    = create_index fromisoformat now test_cases metadata /\
  (description tc = Some [] ->
   format_test_case_lines fromisoformat tc !! 0%nat = Some (py "# " ++ [10%N])).
Proof.
  split; [|split; [|split]].
  - unfold format_test_case. rewrite format_test_case_lines_drop_empty.
    reflexivity.
  - apply index_entry_drop_empty.
  - unfold create_index, create_index_lines, index_header.
    rewrite sorted_cases_drop_empty, index_entries_drop_empty, length_map.
    reflexivity.
  - intros H. unfold format_test_case_lines. rewrite H. reflexivity.
Qed.

Lemma X8_empty_values_as_absent_witness :
  format_test_case_lines Examples.iso_seconds
    (mkTestCase (Some (py "e")) (Some []) None None None None None None None)
    !! 0%nat = Some (py "# " ++ [10%N]).
Proof.
  apply (X8_empty_values_as_absent Examples.iso_seconds Examples.noon []
           empty_dict
           (mkTestCase (Some (py "e")) (Some []) None None None None None
              None None) 1).
  reflexivity.
Defined.

(** X14.  The Markdown of a record ends with the steps section: the heading,
    an empty line, then either the customSteps text as it is between two
    fence lines or, when the text is absent or empty, the line for no steps,
    and a final newline. *)
Theorem X14_steps_section
    (fromisoformat : str -> option datetime) (tc : TestCase) :
  exists pre,
    format_test_case fromisoformat tc =
      pre ++ py "## Test Steps" ++ [10%N; 10%N] ++
      (if truthy_str (customSteps tc)
       then py "```" ++ [10%N] ++ default [] (customSteps tc) ++ [10%N]
            ++ py "```"
       else py "*No steps defined*") ++ [10%N].
Proof.
  unfold format_test_case, format_test_case_lines.
  match goal with
  | |- context [join _ (?l5 ++ ?cb ++ ?md ++ ?lab ++ [[]] ++ ?rest)] =>
      replace (l5 ++ cb ++ md ++ lab ++ [[]] ++ rest)
        with ((l5 ++ cb ++ md ++ lab ++ [[]]) ++ rest)
        by (rewrite <- !app_assoc; reflexivity);
      set (P := l5 ++ cb ++ md ++ lab ++ [[]])
  end.
  exists (join [10%N] P ++ [10%N]).
  rewrite join_app; [|subst P; discriminate|discriminate].
  rewrite <- !app_assoc. f_equal. f_equal.
  destruct (customSteps tc) as [[|c s]|]; simpl truthy_str; simpl default;
    cbv iota; simpl join; rewrite <- ?app_assoc; reflexivity.
Qed.

(** ** More on running the script *)






















(** ** A run that stops *)

Section StoppedRun.

Variable fromisoformat : str -> option datetime.
Variable json_load : str -> option Response.




End StoppedRun.


